(** * WebOSC: the Flask front-end of the Open Shop Channel (app.py)

    A shallow embedding of [app.py].  The module is glue between three
    collaborators that live outside the file: the package registry
    ([osc.API]), the template renderer ([render_template]) and the web
    framework ([Flask]).  The registry and the renderer are parameters of
    the development; the handlers are programs over the calls they make to
    them, so that what a handler calls, in which order and with which
    arguments can be stated and proved. *)

From Stdlib Require Import Ascii String ZArith.
From stdpp Require Import base option list strings gmap.

(** ** Data *)

(** A rendered document (the [str] that [render_template] returns). *)
Definition Html := string.

(** An incoming GET request as the handlers can see it through Flask's
    [request] object: the path, the decoded query string ([request.args], a
    multi-dict kept in arrival order) and the headers. *)
Record Request := {
  path : string;
  args : list (string * string);
  headers : list (string * string)
}.

(** [request.args.get(key)]: the first value sent for [key], Python's [None]
    when the key does not occur. *)
Fixpoint args_get (a : list (string * string)) (key : string) : option string :=
  match a with
  | [] => None
  | (k, v) :: rest => if decide (k = key) then Some v else args_get rest key
  end.

(** The double-quote character (ASCII 34), escaped with a backslash in the
    source's format string. *)
Definition dquote : string := String "034"%char EmptyString.

(** What [str.format] writes for a value that is a string or [None]. *)
Definition py_str (v : option string) : string :=
  match v with
  | Some s => s
  | None => "None"
  end.

(** The exception object handed to an error handler. *)
Record HTTPException := {
  exc_code : Z;
  exc_name : string
}.

(** The response that leaves the framework. *)
Record Response := {
  status : Z;
  body : Html
}.

Section WebOSC.

(** The registry's package objects are opaque to this layer: entities with
    a display name and an internal name (section 3 of the specification),
    created and owned by the registry. *)
Context {Package : Type}.

(** Values bound to template parameters. *)
Inductive Value :=
| VStr (s : string)
| VPackage (p : Package)
| VPackages (ps : list Package).

(** ** Calls to the collaborators *)

(** The calls [app.py] makes outside itself: the three registry methods and
    the renderer with its keyword arguments. *)
Inductive Call :=
| load_packages
| get_packages
| package_by_name (name : option string)
| render_template (template : string) (context : gmap string Value).

(** What each call hands back to Python. *)
Definition Answer (c : Call) : Type :=
  match c with
  | load_packages => unit
  | get_packages => list Package
  | package_by_name _ => option Package
  | render_template _ _ => Html
  end.

(** Programs over these calls. *)
Inductive Prog (A : Type) : Type :=
| Ret (a : A)
| Do (c : Call) (k : Answer c -> Prog A).

Arguments Ret {A} a.
Arguments Do {A} c k.

Fixpoint bind {A B} (f : A -> Prog B) (p : Prog A) : Prog B :=
  match p with
  | Ret a => f a
  | Do c k => Do c (fun x => bind f (k x))
  end.

#[global] Instance Prog_ret : MRet Prog := @Ret.
#[global] Instance Prog_bind : MBind Prog := @bind.

Definition call (c : Call) : Prog (Answer c) := Do c Ret.

(** ** The handlers (app.py, lines 10-51) *)

Definition welcome (request : Request) : Prog Html :=
  call (render_template "welcome.html" ∅).

Definition home (request : Request) : Prog Html :=
  packages ← call get_packages;
  call (render_template "home.html" {[ "packages" := VPackages packages ]}).

Definition apps (request : Request) : Prog Html :=
  packages ← call get_packages;
  call (render_template "list.html" {[ "packages" := VPackages packages ]}).

Definition patches (request : Request) : Prog Html :=
  call (render_template "warning.html"
    {[ "code" := VStr "PATCH-WARN";
       "description" := VStr "Many patches could damage or brick your system. The Open Shop Channel is not responsbile for any damages to your Wii." ]}).

(** The text of the not-found page: the format string of line 37 with the
    value of [request.args.get("package")] written into it. *)
Definition not_found_description (name : option string) : string :=
  "The app " +:+ dquote +:+ py_str name +:+ dquote +:+ " (Internal Name) could not be found.".

(** Line 32 looks the parameter up, line 33 tests the truth value of what
    the lookup returned: Python's [None] is false; a package object, which
    carries at least its names, is true. *)
Definition application (request : Request) : Prog Html :=
  package ← call (package_by_name (args_get (args request) "package"));
  match package with
  | Some p =>
      call (render_template "app.html" {[ "package" := VPackage p ]})
  | None =>
      call (render_template "error.html"
        {[ "code" := VStr "APP-404";
           "description" :=
             VStr (not_found_description (args_get (args request) "package")) ]})
  end.

(** The source names both error handlers [page_not_found]; they are two
    function objects, told apart here by the status they are registered
    for. *)
Definition page_not_found_404 (e : HTTPException) : Prog Html :=
  call (render_template "error.html"
    {[ "code" := VStr "HTTP-404";
       "description" := VStr "Page could not be found. This is not where the shop is :(" ]}).

Definition page_not_found_500 (e : HTTPException) : Prog Html :=
  call (render_template "error.html"
    {[ "code" := VStr "HTTP-500";
       "description" := VStr "Something went wrong on the shop's server. Please report this event!" ]}).

(** The listing pages in the words of the specification (section 4.1):
    fetch the full package list from the registry, render a page with the
    list.  [home] and [apps] are compared with it below. *)
Definition packages_page (template : string) : Prog Html :=
  packages ← call get_packages;
  call (render_template template {[ "packages" := VPackages packages ]}).

(** ** The framework *)

Definition View := Request -> Prog Html.
Definition ErrorHandler := HTTPException -> Prog Html.

(** The part of the [Flask] object that the decorators fill: the URL rules
    with their endpoints, the view function of each endpoint, and the error
    handler of each status code. *)
Record Flask := {
  url_map : list (string * string);
  view_functions : gmap string View;
  error_handler_spec : gmap Z ErrorHandler
}.

(** What a [def] binds a name to. *)
Inductive Function :=
| view_function (f : View)
| error_function (f : ErrorHandler).

(** The module while it is being executed: the names bound by [def] so far
    and the application object. *)
Record Module := {
  globals : gmap string Function;
  app : Flask
}.

(** [app = Flask(__name__)], as far as this module goes on to fill it: no
    rule and no function of the module yet.  (The rule that the framework
    itself adds at this point for the files of the [static] folder, with
    its own view, runs no function of this module and calls neither the
    registry nor the renderer; it is left out, and with it the paths under
    [/static/].) *)
Definition new_module : Module :=
  {| globals := ∅;
     app := {| url_map := []; view_functions := ∅; error_handler_spec := ∅ |} |}.

(** [@app.route(rule)] over [def name]: the rule is added with the
    function's name as its endpoint, the function is stored under that
    endpoint, and the name is bound in the module.  (The framework refuses
    an endpoint that is already taken by another function; the five views
    have five names.) *)
Definition def_route (rule name : string) (f : View) (m : Module) : Module :=
  {| globals := <[ name := view_function f ]> (globals m);
     app := {| url_map := url_map (app m) ++ [(rule, name)];
               view_functions := <[ name := f ]> (view_functions (app m));
               error_handler_spec := error_handler_spec (app m) |} |}.

(** [@app.errorhandler(code)] over [def name]: the function is stored under
    the status code, and the name is bound in the module. *)
Definition def_errorhandler (code : Z) (name : string) (f : ErrorHandler)
    (m : Module) : Module :=
  {| globals := <[ name := error_function f ]> (globals m);
     app := {| url_map := url_map (app m);
               view_functions := view_functions (app m);
               error_handler_spec := <[ code := f ]> (error_handler_spec (app m)) |} |}.

(** Lines 10 to 51, in order. *)
Definition definitions : list (Module -> Module) :=
  [ def_route "/" "welcome" welcome;
    def_route "/home" "home" home;
    def_route "/apps" "apps" apps;
    def_route "/patches" "patches" patches;
    def_route "/app" "application" application;
    def_errorhandler 404 "page_not_found" page_not_found_404;
    def_errorhandler 500 "page_not_found" page_not_found_500 ].

Definition webosc : Module :=
  foldl (fun m def => def m) new_module definitions.

(** The exceptions the framework raises on its own. *)
Definition NotFound : HTTPException :=
  {| exc_code := 404; exc_name := "Not Found" |}.
Definition InternalServerError : HTTPException :=
  {| exc_code := 500; exc_name := "Internal Server Error" |}.

(** The endpoint of the first rule equal to the request's path.  The rules
    of this module have no variable parts, so a rule matches the one path
    it spells.  (The redirect with which the framework answers a path with
    doubled slashes runs no function of the module and is left out.) *)
Definition match_request (a : Flask) (request : Request) : option string :=
  snd <$> find (fun r => bool_decide (r.1 = path request)) (url_map a).

(** Either the view's document or the exception raised instead. *)
Definition dispatch_request (a : Flask) (request : Request)
    : Prog (HTTPException + Html) :=
  match match_request a request with
  | None => mret (inl NotFound)
  | Some endpoint =>
      match view_functions a !! endpoint with
      | Some f => rv ← f request; mret (inr rv)
      | None => mret (inl InternalServerError)
      end
  end.

(** An exception goes to the handler registered for its code, if any;
    without one the exception itself is the outcome. *)
Definition handle_http_exception (a : Flask) (e : HTTPException)
    : Prog (HTTPException + Html) :=
  match error_handler_spec a !! exc_code e with
  | Some handler => rv ← handler e; mret (inr rv)
  | None => mret (inl e)
  end.

Definition full_dispatch_request (a : Flask) (request : Request)
    : Prog (HTTPException + Html) :=
  rv ← dispatch_request a request;
  match rv with
  | inr doc => mret (inr doc)
  | inl e => handle_http_exception a e
  end.

(** A function that returns a bare document leaves the status to the
    framework, whose default is 200; an exception nobody handled answers
    with its own code, and of the page the framework writes for it only the
    name is kept here. *)
Definition make_response (rv : HTTPException + Html) : Response :=
  match rv with
  | inr doc => {| status := 200; body := doc |}
  | inl e => {| status := exc_code e; body := exc_name e |}
  end.

Definition wsgi_app (a : Flask) (request : Request) : Prog Response :=
  rv ← full_dispatch_request a request;
  mret (make_response rv).

(** The process: line 5 loads the registry, lines 7 to 51 build the
    application, and only then (line 55, or the server that imported the
    module) requests are taken, one after the other. *)
Fixpoint serve (a : Flask) (requests : list Request) : Prog (list Response) :=
  match requests with
  | [] => mret []
  | request :: rest =>
      response ← wsgi_app a request;
      responses ← serve a rest;
      mret (response :: responses)
  end.

Definition process (requests : list Request) : Prog (list Response) :=
  _ ← call load_packages;
  serve (app webosc) requests.

(** ** The collaborators *)

(** The registry client.  [handle] is the state of the object bound to
    [OpenShopChannel]; every method may change it, whether one does is up
    to the implementation. *)
Record Registry := {
  handle : Type;
  API : handle;
  on_load_packages : handle -> handle;
  on_get_packages : handle -> list Package * handle;
  on_package_by_name : handle -> option string -> option Package * handle
}.

(** The renderer: a template identifier and the keyword arguments give a
    document. *)
Definition Renderer := string -> gmap string Value -> Html.

(** A registry whose two read methods leave the handle as they found it
    (what section 5 of the specification assumes of them). *)
Definition reads_are_pure (osc : Registry) : Prop :=
  (forall h, (on_get_packages osc h).2 = h) /\
  (forall h name, (on_package_by_name osc h name).2 = h).

Section Run.

Context (osc : Registry) (render : Renderer).

Definition perform (c : Call) (h : handle osc) : Answer c * handle osc :=
  match c return Answer c * handle osc with
  | load_packages => (tt, on_load_packages osc h)
  | get_packages => on_get_packages osc h
  | package_by_name name => on_package_by_name osc h name
  | render_template template context => (render template context, h)
  end.

(** Running a program from a handle gives its result, the handle afterwards
    and the calls made, in order. *)
Fixpoint run {A} (p : Prog A) (h : handle osc) : A * handle osc * list Call :=
  match p with
  | Ret a => (a, h, [])
  | Do c k =>
      let '(x, h1) := perform c h in
      let '(a, h2, t) := run (k x) h1 in
      (a, h2, c :: t)
  end.

End Run.

(** ** Reading a trace *)

(** How many packages a template is given to list. *)
Definition package_count (context : gmap string Value) : nat :=
  match context !! "packages" with
  | Some (VPackages ps) => length ps
  | _ => 0
  end.

Definition is_render_call (c : Call) : bool :=
  match c with
  | render_template _ _ => true
  | _ => false
  end.

Definition is_registry_call (c : Call) : bool := negb (is_render_call c).

Definition is_load_call (c : Call) : bool :=
  match c with
  | load_packages => true
  | _ => false
  end.

(** A program that never calls [load_packages], whatever it is answered:
    of the registry it uses the two read methods only. *)
Fixpoint read_only {A} (p : Prog A) : Prop :=
  match p with
  | Ret _ => True
  | Do c k => c <> load_packages /\ forall x, read_only (k x)
  end.

(** How many calls of a kind a trace holds. *)
Definition count (kind : Call -> bool) (t : list Call) : nat :=
  length (List.filter kind t).

End WebOSC.

Arguments Call : clear implicits.
Arguments Value : clear implicits.
Arguments Registry : clear implicits.
Arguments Renderer : clear implicits.

(** ** Text of a page *)

(** [contains s t]: the text [t] occurs in [s]. *)
Definition contains (s t : string) : Prop :=
  exists before after, s = before +:+ t +:+ after.

(** The same as a test: [t] is a prefix of [s] or occurs further on. *)
Fixpoint occurs (t s : string) : bool :=
  String.prefix t s ||
  match s with
  | EmptyString => false
  | String _ rest => occurs t rest
  end.

(** What an autoescaping renderer writes for a character of a value: the
    five characters of markup become entities (Flask turns this on for
    templates named [.html]). *)
Definition escape_char (c : ascii) : string :=
  if decide (c = "&"%char) then "&amp;"
  else if decide (c = "<"%char) then "&lt;"
  else if decide (c = ">"%char) then "&gt;"
  else if decide (c = "'"%char) then "&#39;"
  else if decide (c = "034"%char) then "&#34;"
  else String c EmptyString.

Fixpoint escape (s : string) : string :=
  match s with
  | EmptyString => EmptyString
  | String c rest => escape_char c +:+ escape rest
  end.

(** ** A shop to run the handlers on

    A small instance of the two collaborators, after the example of
    section 8 of the specification: a catalogue that is empty until it is
    loaded and is then looked up by internal name, and a renderer that
    writes out the template's name and the fields it is given. *)

Record Entry := {
  display_name : string;
  internal_name : string
}.

Definition hbb : Entry :=
  {| display_name := "Homebrew Browser"; internal_name := "hbb" |}.

Definition wiixplorer : Entry :=
  {| display_name := "WiiXplorer"; internal_name := "wiixplorer" |}.

Definition catalogue : list Entry := [ hbb; wiixplorer ].

Definition shop : Registry Entry := {|
  handle := list Entry;
  API := [];
  on_load_packages := fun _ => catalogue;
  on_get_packages := fun h => (h, h);
  on_package_by_name := fun h name =>
    (find (fun p => bool_decide (Some (internal_name p) = name)) h, h)
|}.

Definition show (v : option (Value Entry)) : string :=
  match v with
  | Some (VStr s) => s
  | Some (VPackage p) => display_name p
  | Some (VPackages ps) => String.concat ", " (display_name <$> ps)
  | None => EmptyString
  end.

Definition plain : Renderer Entry := fun template context =>
  template +:+ " [" +:+ show (context !! "code") +:+ "] "
    +:+ show (context !! "description")
    +:+ show (context !! "package") +:+ show (context !! "packages").

(** The same page written by a renderer that escapes the values. *)
Definition escaping : Renderer Entry := fun template context =>
  template +:+ " [" +:+ escape (show (context !! "code")) +:+ "] "
    +:+ escape (show (context !! "description"))
    +:+ escape (show (context !! "package"))
    +:+ escape (show (context !! "packages")).

Definition get (p : string) (query : list (string * string)) : Request :=
  {| path := p; args := query; headers := [] |}.

(** ** What the templates are given *)

Section Contracts.

Context {Package : Type}.

(** Every call a program can come to make, whatever it is answered,
    satisfies [P]. *)
Fixpoint always {A} (P : Call Package -> Prop) (p : @Prog Package A) : Prop :=
  match p with
  | Ret _ _ => True
  | Do _ c k => P c /\ forall x, always P (k x)
  end.

(** The kind of value bound to a keyword argument. *)
Inductive Kind := KStr | KPackage | KPackages.

Definition kind_of (v : Value Package) : Kind :=
  match v with
  | VStr _ => KStr
  | VPackage _ => KPackage
  | VPackages _ => KPackages
  end.

(** The six templates that [app.py] names, each with the keyword arguments
    written at its [render_template] calls (lines 12, 17, 22, 27, 34, 36,
    44 and 50). *)
Definition templates : list (string * gmap string Kind) :=
  [ ("welcome.html", ∅);
    ("home.html", {[ "packages" := KPackages ]});
    ("list.html", {[ "packages" := KPackages ]});
    ("warning.html", {[ "code" := KStr; "description" := KStr ]});
    ("app.html", {[ "package" := KPackage ]});
    ("error.html", {[ "code" := KStr; "description" := KStr ]}) ].

(** A render call names one of the six templates and gives it the
    arguments listed for it, no more and no fewer. *)
Definition fits_template (c : Call Package) : Prop :=
  match c with
  | render_template template context =>
      (template, kind_of <$> context) ∈ templates
  | _ => True
  end.

(** The codes written in the source, by the template they are shown on. *)
Definition codes : list (string * string) :=
  [ ("warning.html", "PATCH-WARN");
    ("error.html", "APP-404");
    ("error.html", "HTTP-404");
    ("error.html", "HTTP-500") ].

(** A render call that carries a [code] carries one of the written ones. *)
Definition code_is_fixed (c : Call Package) : Prop :=
  match c with
  | render_template template context =>
      forall v, context !! "code" = Some v ->
        exists code, v = VStr code /\ (template, code) ∈ codes
  | _ => True
  end.

End Contracts.

(** * Properties *)

(** ** Text *)

Lemma append_cons (x : ascii) (a b : string) :
  String x a +:+ b = String x (a +:+ b).
Proof. reflexivity. Qed.

Lemma append_assoc (a b c : string) : (a +:+ b) +:+ c = a +:+ b +:+ c.
Proof.
  induction a as [|x a IH]; [reflexivity|].
  now rewrite !append_cons, IH.
Qed.

Lemma prefix_append (t after : string) : String.prefix t (t +:+ after) = true.
Proof.
  induction t as [|c t IH]; [now destruct after|].
  rewrite append_cons. cbn. now destruct (ascii_dec c c).
Qed.

Lemma occurs_unfold (t s : string) :
  occurs t s =
    String.prefix t s ||
    match s with
    | EmptyString => false
    | String _ rest => occurs t rest
    end.
Proof. now destruct s. Qed.

(** The test finds every occurrence. *)
Lemma contains_occurs (s t : string) : contains s t -> occurs t s = true.
Proof.
  intros (before & after & ->).
  induction before as [|c before IH].
  - change (EmptyString +:+ t +:+ after) with (t +:+ after).
    rewrite occurs_unfold, prefix_append. reflexivity.
  - rewrite append_cons, occurs_unfold, IH. apply orb_true_r.
Qed.

(** The not-found text quotes what was asked for. *)
Lemma not_found_description_cites (name : option string) :
  contains (not_found_description name) (py_str name).
Proof.
  unfold not_found_description.
  exists ("The app " +:+ dquote), (dquote +:+ " (Internal Name) could not be found.").
  now rewrite !append_assoc.
Qed.

(** ** Routing *)

Section Routing.

Context {Package : Type}.

Local Abbreviation webosc := (@webosc Package).

(** A request is routed by its path alone. *)
Lemma match_request_path (request : Request) (rule endpoint : string) :
  path request = rule ->
  snd <$> find (fun r => bool_decide (r.1 = rule)) (url_map (app webosc))
    = Some endpoint ->
  match_request (app webosc) request = Some endpoint.
Proof. intros <- H. exact H. Qed.

(** The five rules, in the order of the source, and the view of each. *)
Lemma webosc_url_map :
  url_map (app webosc) =
    [ ("/", "welcome"); ("/home", "home"); ("/apps", "apps");
      ("/patches", "patches"); ("/app", "application") ].
Proof. reflexivity. Qed.

Lemma webosc_view_functions (endpoint : string) (f : View) :
  view_functions (app webosc) !! endpoint = Some f ->
  (endpoint = "welcome" /\ f = welcome) \/
  (endpoint = "home" /\ f = home) \/
  (endpoint = "apps" /\ f = apps) \/
  (endpoint = "patches" /\ f = patches) \/
  (endpoint = "application" /\ f = application).
Proof.
  change (view_functions (app webosc)) with
    (<["application" := application]>
      (<["patches" := patches]>
        (<["apps" := apps]>
          (<["home" := home]>
            (<["welcome" := welcome]> (∅ : gmap string (@View Package))))))).
  intros H.
  repeat (apply lookup_insert_Some in H as [[<- <-]|[_ H]]; [tauto|]).
  now rewrite lookup_empty in H.
Qed.

Lemma webosc_error_handlers (code : Z) (f : ErrorHandler) :
  error_handler_spec (app webosc) !! code = Some f ->
  (code = 404%Z /\ f = page_not_found_404) \/
  (code = 500%Z /\ f = page_not_found_500).
Proof.
  change (error_handler_spec (app webosc)) with
    (<[500%Z := page_not_found_500]>
      (<[404%Z := page_not_found_404]>
        (∅ : gmap Z (@ErrorHandler Package)))).
  intros H.
  repeat (apply lookup_insert_Some in H as [[<- <-]|[_ H]]; [tauto|]).
  now rewrite lookup_empty in H.
Qed.

(** Two functions defined under one name for two different codes: the
    table keeps both, each under its code; the name keeps the second. *)
Lemma def_errorhandler_twice (m : @Module Package) (name : string)
    (code1 code2 : Z) (f1 f2 : ErrorHandler) :
  code1 <> code2 ->
  let m2 := def_errorhandler code2 name f2 (def_errorhandler code1 name f1 m) in
  error_handler_spec (app m2) !! code1 = Some f1 /\
  error_handler_spec (app m2) !! code2 = Some f2 /\
  globals m2 !! name = Some (error_function f2) /\
  url_map (app m2) = url_map (app m) /\
  view_functions (app m2) = view_functions (app m).
Proof.
  intros Hne. cbn. unfold ErrorHandler in *.
  rewrite lookup_insert_ne, !lookup_insert_eq by congruence.
  auto.
Qed.

(** Every view of the module, and both error handlers, are read-only. *)
Lemma views_read_only (endpoint : string) (f : View) (request : Request) :
  view_functions (app webosc) !! endpoint = Some f -> read_only (f request).
Proof.
  intros H.
  destruct (webosc_view_functions endpoint f H)
    as [[_ ->]|[[_ ->]|[[_ ->]|[[_ ->]|[_ ->]]]]]; cbn;
    repeat first [ split | discriminate | intros [?|] | intro ]; auto.
Qed.

Lemma error_handlers_read_only (code : Z) (f : ErrorHandler) (e : HTTPException) :
  error_handler_spec (app webosc) !! code = Some f -> read_only (f e).
Proof.
  intros H.
  destruct (webosc_error_handlers code f H) as [[_ ->]|[_ ->]]; cbn;
    repeat first [ split | discriminate | intro ]; auto.
Qed.

Lemma read_only_bind {A B} (p : @Prog Package A) (f : A -> Prog B) :
  read_only p -> (forall a, read_only (f a)) -> read_only (p ≫= f).
Proof.
  intros Hp Hf. induction p as [a|c k IH]; cbn.
  - apply Hf.
  - destruct Hp as [Hc Hk]. split; [exact Hc|]. intros x. apply IH, Hk.
Qed.

Lemma wsgi_app_read_only (request : Request) :
  read_only (wsgi_app (app webosc) request).
Proof.
  unfold wsgi_app, full_dispatch_request.
  apply read_only_bind; [|intros; exact I].
  apply read_only_bind.
  - unfold dispatch_request.
    destruct (match_request (app webosc) request) as [endpoint|]; [|exact I].
    destruct (view_functions (app webosc) !! endpoint) as [f|] eqn:Hf; [|exact I].
    apply read_only_bind; [|intros; exact I].
    now apply (views_read_only endpoint).
  - intros [e|doc]; [|exact I].
    unfold handle_http_exception.
    destruct (error_handler_spec (app webosc) !! exc_code e) as [f|] eqn:Hf;
      [|exact I].
    apply read_only_bind; [|intros; exact I].
    now apply (error_handlers_read_only (exc_code e)).
Qed.

Lemma serve_read_only (requests : list Request) :
  read_only (serve (app webosc) requests).
Proof.
  induction requests as [|request rest IH]; [exact I|].
  cbn [serve]. apply read_only_bind; [apply wsgi_app_read_only|].
  intros response. apply read_only_bind; [exact IH|]. intros; exact I.
Qed.

(** The views read the request through its [package] parameter only. *)
Lemma views_read_package (endpoint : string) (f : View)
    (request1 request2 : Request) :
  view_functions (app webosc) !! endpoint = Some f ->
  args_get (args request1) "package" = args_get (args request2) "package" ->
  f request1 = f request2.
Proof.
  intros H Hargs.
  destruct (webosc_view_functions endpoint f H)
    as [[_ ->]|[[_ ->]|[[_ ->]|[[_ ->]|[_ ->]]]]]; try reflexivity.
  unfold application. now rewrite Hargs.
Qed.

(** The error handlers do not read the exception. *)
Lemma error_handlers_ignore (code : Z) (f : ErrorHandler) (e1 e2 : HTTPException) :
  error_handler_spec (app webosc) !! code = Some f -> f e1 = f e2.
Proof.
  intros H.
  now destruct (webosc_error_handlers code f H) as [[_ ->]|[_ ->]].
Qed.

(** Hence two requests with one path and one [package] value are answered
    by one and the same program. *)
Lemma wsgi_app_reads_package (request1 request2 : Request) :
  path request1 = path request2 ->
  args_get (args request1) "package" = args_get (args request2) "package" ->
  wsgi_app (app webosc) request1 = wsgi_app (app webosc) request2.
Proof.
  intros Hpath Hargs.
  unfold wsgi_app, full_dispatch_request, dispatch_request, match_request.
  rewrite Hpath.
  destruct (snd <$> find _ (url_map (app webosc))) as [endpoint|]; [|reflexivity].
  destruct (view_functions (app webosc) !! endpoint) as [f|] eqn:Hf; [|reflexivity].
  now rewrite (views_read_package endpoint f request1 request2 Hf Hargs).
Qed.

End Routing.

(** ** Running programs *)

Section Handlers.

Context {Package : Type} (osc : Registry Package) (render : Renderer Package).

Local Abbreviation webosc := (@webosc Package).

Lemma run_bind {A B} (p : Prog A) (f : A -> Prog B) (h : handle osc) :
  run osc render (p ≫= f) h =
    let '(a, h1, t1) := run osc render p h in
    let '(b, h2, t2) := run osc render (f a) h1 in
    (b, h2, t1 ++ t2).
Proof.
  revert h. induction p as [a|c k IH]; intros h.
  - cbn. now destruct (run osc render (f a) h) as [[b h2] t2].
  - cbn. destruct (perform osc render c h) as [x h1].
    change (bind f (k x)) with (k x ≫= f). rewrite IH.
    destruct (run osc render (k x) h1) as [[a h2] t1].
    now destruct (run osc render (f a) h2) as [[b h3] t2].
Qed.

(** A request whose path is one of the rules is dispatched to the rule's
    view, and the outcome is the document the view returns. *)
Lemma run_dispatch (rule endpoint : string) (f : View) (request : Request)
    (h : handle osc) :
  path request = rule ->
  snd <$> find (fun r => bool_decide (r.1 = rule)) (url_map (app webosc))
    = Some endpoint ->
  view_functions (app webosc) !! endpoint = Some f ->
  run osc render (dispatch_request (app webosc) request) h =
    let '(doc, h1, t) := run osc render (f request) h in
    (inr doc, h1, t).
Proof.
  intros Hpath Hrule Hview. unfold dispatch_request.
  rewrite (match_request_path request rule endpoint Hpath Hrule).
  match goal with
  | |- context [view_functions ?a !! ?e] =>
      replace (view_functions a !! e) with (Some f) by (symmetry; exact Hview)
  end.
  rewrite run_bind.
  destruct (run osc render (f request) h) as [[doc h1] t].
  cbn. now rewrite app_nil_r.
Qed.

(** Such a request is answered with status 200 around that document, with
    the view's calls and the view's effect on the handle. *)
Lemma run_view (rule endpoint : string) (f : View) (request : Request)
    (h : handle osc) :
  path request = rule ->
  snd <$> find (fun r => bool_decide (r.1 = rule)) (url_map (app webosc))
    = Some endpoint ->
  view_functions (app webosc) !! endpoint = Some f ->
  run osc render (wsgi_app (app webosc) request) h =
    let '(doc, h1, t) := run osc render (f request) h in
    ({| status := 200; body := doc |}, h1, t).
Proof.
  intros Hpath Hrule Hview.
  unfold wsgi_app, full_dispatch_request.
  rewrite !run_bind, (run_dispatch rule endpoint f request h Hpath Hrule Hview).
  destruct (run osc render (f request) h) as [[doc h1] t].
  cbn. now rewrite !app_nil_r.
Qed.

(** A read-only program makes no [load_packages] call when it is run, and
    on a registry whose reads are pure it hands the handle back as it
    was. *)
Lemma perform_read (c : Call Package) (h : handle osc) :
  c <> load_packages -> reads_are_pure osc -> (perform osc render c h).2 = h.
Proof.
  intros Hc [Hget Hname]. destruct c; cbn; [congruence|apply Hget|apply Hname|reflexivity].
Qed.

Lemma read_only_run {A} (p : Prog A) (h : handle osc) :
  read_only p ->
  let '(_, h1, t) := run osc render p h in
  (load_packages ∉ t) /\ (reads_are_pure osc -> h1 = h).
Proof.
  revert h. induction p as [a|c k IH]; intros h Hp; cbn.
  - split; [apply not_elem_of_nil|reflexivity].
  - destruct Hp as [Hc Hk].
    pose proof (perform_read c h Hc) as Hperform.
    destruct (perform osc render c h) as [x h1].
    specialize (IH x h1 (Hk x)).
    destruct (run osc render (k x) h1) as [[a h2] t].
    destruct IH as [Hnot Hsame]. split.
    + apply not_elem_of_cons. split; [congruence|exact Hnot].
    + intros Hpure. rewrite (Hsame Hpure). exact (Hperform Hpure).
Qed.

Lemma count_load_absent (t : list (Call Package)) :
  load_packages ∉ t -> count is_load_call t = 0.
Proof.
  induction t as [|c t IH]; [reflexivity|].
  intros H. apply not_elem_of_cons in H as [Hc Ht].
  unfold count in *. destruct c; cbn; try congruence; now apply IH.
Qed.

Lemma run_serve_length (requests : list Request) (h : handle osc) :
  length (run osc render (serve (app webosc) requests) h).1.1 = length requests.
Proof.
  revert h. induction requests as [|request rest IH]; intros h; [reflexivity|].
  cbn [serve]. rewrite run_bind.
  destruct (run osc render (wsgi_app (app webosc) request) h) as [[response h1] t1].
  rewrite run_bind. specialize (IH h1).
  destruct (run osc render (serve (app webosc) rest) h1) as [[responses h2] t2].
  cbn [run mret Prog_ret fst length] in *. now rewrite IH.
Qed.

(** What a request for [/app] comes to, by the outcome of the lookup. *)
Lemma run_application (request : Request) (h : handle osc) :
  path request = "/app" ->
  run osc render (wsgi_app (app webosc) request) h =
    let name := args_get (args request) "package" in
    let '(package, h1) := on_package_by_name osc h name in
    let '(template, context) :=
      match package with
      | Some p => ("app.html", {[ "package" := VPackage p ]})
      | None =>
          ("error.html",
           {[ "code" := VStr "APP-404";
              "description" := VStr (not_found_description name) ]})
      end in
    ({| status := 200; body := render template context |}, h1,
     [ package_by_name name; render_template template context ]).
Proof.
  intros Hpath.
  rewrite (run_view "/app" "application" application request h Hpath eq_refl eq_refl).
  cbn. now destruct (on_package_by_name osc h _) as [[p|] h1].
Qed.

(** C1.  A request for [/app] looks the value of its [package] parameter up
    in the registry, once.  When the lookup returns a package the answer is
    status 200 with [app.html] rendered for that package; when it returns
    none the answer is status 200 with [error.html] rendered with the code
    APP-404. *)
Theorem application_lookup (request : Request) (h : handle osc) :
  path request = "/app" ->
  let name := args_get (args request) "package" in
  (forall p h1,
      on_package_by_name osc h name = (Some p, h1) ->
      run osc render (wsgi_app (app webosc) request) h =
        ({| status := 200;
            body := render "app.html" {[ "package" := VPackage p ]} |},
         h1,
         [ package_by_name name;
           render_template "app.html" {[ "package" := VPackage p ]} ])) /\
  (forall h1,
      on_package_by_name osc h name = (None, h1) ->
      run osc render (wsgi_app (app webosc) request) h =
        ({| status := 200;
            body := render "error.html"
              {[ "code" := VStr "APP-404";
                 "description" := VStr (not_found_description name) ]} |},
         h1,
         [ package_by_name name;
           render_template "error.html"
              {[ "code" := VStr "APP-404";
                 "description" := VStr (not_found_description name) ]} ])).
Proof.
  intros Hpath name. rewrite (run_application request h Hpath).
  cbv zeta. fold name. split; intros; now rewrite H.
Qed.

(** C2, as amended.  Whatever the [package] parameter is (a name, the
    empty string, or no parameter at all), whenever the lookup returns no
    package the request for [/app] is answered, with status 200, by what the
    renderer makes of [error.html] with the code APP-404 and a description
    that contains the requested name as it was sent; with the parameter
    left out the name written is Python's [None].  What the body contains
    is the renderer's affair: one that escapes the values does not show a
    name with markup characters as it was sent. *)
Theorem application_not_found (request : Request) (h h1 : handle osc) :
  path request = "/app" ->
  let name := args_get (args request) "package" in
  on_package_by_name osc h name = (None, h1) ->
  let description := not_found_description name in
  let context : gmap string (Value Package) :=
    {[ "code" := VStr "APP-404"; "description" := VStr description ]} in
  run osc render (wsgi_app (app webosc) request) h =
    ({| status := 200; body := render "error.html" context |}, h1,
     [ package_by_name name; render_template "error.html" context ]) /\
  contains description (py_str name) /\
  (forall s, name = Some s -> contains description s) /\
  (name = None -> contains description "None").
Proof.
  intros Hpath name Hnone description context.
  pose proof (not_found_description_cites name) as Hcites.
  split; [|split; [|split]].
  - rewrite (run_application request h Hpath).
    cbv zeta. fold name. now rewrite Hnone.
  - exact Hcites.
  - intros s Hs. now rewrite Hs in Hcites at 2.
  - intros Hs. now rewrite Hs in Hcites at 2.
Qed.

(** C3.  A request for [/patches] is answered, whatever else it carries and
    whatever the registry holds, with status 200 and [warning.html] rendered
    with the code PATCH-WARN and the disclaimer, and nothing else; the
    registry is not called. *)
Theorem patches_fixed (request : Request) (h : handle osc) :
  path request = "/patches" ->
  let context : gmap string (Value Package) :=
    {[ "code" := VStr "PATCH-WARN";
       "description" := VStr "Many patches could damage or brick your system. The Open Shop Channel is not responsbile for any damages to your Wii." ]} in
  run osc render (wsgi_app (app webosc) request) h =
    ({| status := 200; body := render "warning.html" context |}, h,
     [ render_template "warning.html" context ]).
Proof.
  intros Hpath context.
  now rewrite (run_view "/patches" "patches" patches request h Hpath eq_refl eq_refl).
Qed.

(** C4.  A request for [/home] or for [/apps] calls [get_packages] on the
    handle as it is when the request arrives and binds the list it returns,
    as it is, to [packages] for [home.html] or [list.html]: the page is
    given as many packages as the registry returned, and the status is
    200. *)
Theorem listing_pages (request : Request) (template : string) (h : handle osc) :
  (path request = "/home" /\ template = "home.html") \/
  (path request = "/apps" /\ template = "list.html") ->
  forall packages h1,
    on_get_packages osc h = (packages, h1) ->
    let context : gmap string (Value Package) :=
      {[ "packages" := VPackages packages ]} in
    run osc render (wsgi_app (app webosc) request) h =
      ({| status := 200; body := render template context |}, h1,
       [ get_packages; render_template template context ]) /\
    package_count context = length packages.
Proof.
  intros Hroute packages h1 Hget context. split; [|reflexivity].
  destruct Hroute as [[Hpath ->]|[Hpath ->]].
  - rewrite (run_view "/home" "home" home request h Hpath eq_refl eq_refl).
    cbn. now rewrite Hget.
  - rewrite (run_view "/apps" "apps" apps request h Hpath eq_refl eq_refl).
    cbn. now rewrite Hget.
Qed.

(** C10.  [home] and [apps] are the same listing page up to the template:
    each is [packages_page] at its own template, so for one handle both
    make the same [get_packages] call and bind its result to the one
    parameter [packages]; the templates differ. *)
Theorem home_apps_same_data (request : Request) :
  @home Package request = packages_page "home.html" /\
  @apps Package request = packages_page "list.html" /\
  "home.html" <> "list.html" /\
  forall (template : string) (h : handle osc),
    run osc render (packages_page template) h =
      let '(packages, h1) := on_get_packages osc h in
      (render template {[ "packages" := VPackages packages ]}, h1,
       [ get_packages;
         render_template template {[ "packages" := VPackages packages ]} ]).
Proof.
  split; [reflexivity|]. split; [reflexivity|]. split; [discriminate|].
  intros template h. cbn. now destruct (on_get_packages osc h).
Qed.

(** C7.  A request for one of the five rules makes exactly one render call,
    the last call of the request, whose result is the body of the response,
    and at most one registry call before it: none for [/] and [/patches],
    one [get_packages] for [/home] and [/apps], one [package_by_name] for
    [/app]. *)
Theorem calls_per_request (request : Request) (h : handle osc) :
  path request ∈ (url_map (app webosc)).*1 ->
  let name := args_get (args request) "package" in
  let '(response, _, t) := run osc render (wsgi_app (app webosc) request) h in
  (url_map (app webosc)).*1 = ["/"; "/home"; "/apps"; "/patches"; "/app"] /\
  count is_render_call t = 1 /\
  count is_registry_call t <= 1 /\
  (exists template context,
      last t = Some (render_template template context) /\
      body response = render template context) /\
  (path request = "/" \/ path request = "/patches" ->
     List.filter is_registry_call t = []) /\
  (path request = "/home" \/ path request = "/apps" ->
     List.filter is_registry_call t = [get_packages]) /\
  (path request = "/app" ->
     List.filter is_registry_call t = [package_by_name name]).
Proof.
  intros Hin name. cbn in Hin.
  repeat (apply elem_of_cons in Hin as [Hpath|Hin]); [..|now apply elem_of_nil in Hin].
  - rewrite (run_view "/" "welcome" welcome request h Hpath eq_refl eq_refl).
    cbn. rewrite Hpath. repeat split; eauto; intuition discriminate.
  - rewrite (run_view "/home" "home" home request h Hpath eq_refl eq_refl).
    cbn. destruct (on_get_packages osc h) as [packages h1].
    cbn. rewrite Hpath. repeat split; eauto; intuition discriminate.
  - rewrite (run_view "/apps" "apps" apps request h Hpath eq_refl eq_refl).
    cbn. destruct (on_get_packages osc h) as [packages h1].
    cbn. rewrite Hpath. repeat split; eauto; intuition discriminate.
  - rewrite (run_view "/patches" "patches" patches request h Hpath eq_refl eq_refl).
    cbn. rewrite Hpath. repeat split; eauto; intuition discriminate.
  - rewrite (run_view "/app" "application" application request h Hpath eq_refl eq_refl).
    cbn. fold name. destruct (on_package_by_name osc h name) as [[p|] h1];
      cbn; rewrite Hpath; repeat split; eauto; intuition discriminate.
Qed.

(** C8.  Serving requests never calls [load_packages]: every program the
    application runs for a request, views and error handlers alike, is
    read-only.  So on a registry whose two read methods leave the handle
    alone, the handle after any sequence of requests is the handle before
    it, and every request sees the handle as the start-up left it. *)
Theorem registry_unchanged (requests : list Request) (h : handle osc) :
  read_only (serve (app webosc) requests) /\
  (forall request, read_only (wsgi_app (app webosc) request)) /\
  let '(_, h1, t) := run osc render (serve (app webosc) requests) h in
  (load_packages ∉ t) /\
  (reads_are_pure osc ->
     h1 = h /\
     forall before request after,
       requests = before ++ request :: after ->
       (run osc render (serve (app webosc) before) h).1.2 = h /\
       (run osc render (wsgi_app (app webosc) request) h).1.2 = h).
Proof.
  split; [apply serve_read_only|]. split; [apply wsgi_app_read_only|].
  pose proof (read_only_run _ h (serve_read_only requests)) as Hrun.
  destruct (run osc render (serve (app webosc) requests) h) as [[responses h1] t].
  destruct Hrun as [Hnot Hsame]. split; [exact Hnot|].
  intros Hpure. split; [now apply Hsame|].
  intros before request after _. split.
  - pose proof (read_only_run _ h (serve_read_only before)) as Hb.
    destruct (run osc render (serve (app webosc) before) h) as [[rs hb] tb].
    now apply Hb.
  - pose proof (read_only_run _ h (wsgi_app_read_only request)) as Hr.
    destruct (run osc render (wsgi_app (app webosc) request) h) as [[r hr] tr].
    now apply Hr.
Qed.

(** C9.  From one handle, two requests with the same path and the same
    value of the [package] parameter get the same response, through the
    same calls (so the same template and the same parameters), whatever
    else the requests carry.  Requests for [/] and for [/patches] do not
    even need the same parameter, and an exception of code 404 or 500 is
    handled the same way whatever the exception carries. *)
Theorem handlers_deterministic (h : handle osc) :
  (forall request1 request2,
      path request1 = path request2 ->
      args_get (args request1) "package" = args_get (args request2) "package" ->
      run osc render (wsgi_app (app webosc) request1) h =
      run osc render (wsgi_app (app webosc) request2) h) /\
  (forall request1 request2,
      path request1 = path request2 ->
      path request1 = "/" \/ path request1 = "/patches" ->
      run osc render (wsgi_app (app webosc) request1) h =
      run osc render (wsgi_app (app webosc) request2) h) /\
  (forall e1 e2,
      exc_code e1 = exc_code e2 ->
      exc_code e1 = 404%Z \/ exc_code e1 = 500%Z ->
      run osc render (handle_http_exception (app webosc) e1) h =
      run osc render (handle_http_exception (app webosc) e2) h).
Proof.
  split; [|split].
  - intros request1 request2 Hpath Hargs.
    now rewrite (wsgi_app_reads_package request1 request2 Hpath Hargs).
  - intros request1 request2 Hpath [H1|H1];
      assert (H2 : path request2 = path request1) by congruence;
      rewrite H1 in H2.
    + now rewrite
        (run_view "/" "welcome" welcome request1 h H1 eq_refl eq_refl),
        (run_view "/" "welcome" welcome request2 h H2 eq_refl eq_refl).
    + now rewrite
        (run_view "/patches" "patches" patches request1 h H1 eq_refl eq_refl),
        (run_view "/patches" "patches" patches request2 h H2 eq_refl eq_refl).
  - intros e1 e2 Hcode Hknown. unfold handle_http_exception. rewrite <- Hcode.
    destruct (error_handler_spec (app webosc) !! exc_code e1) as [f|] eqn:Hf.
    + now rewrite (error_handlers_ignore (exc_code e1) f e1 e2 Hf).
    + exfalso. destruct Hknown as [Hk|Hk]; rewrite Hk in Hf; discriminate Hf.
Qed.

(** C5.  The table of error handlers holds the first [page_not_found] under
    404 and the second under 500, although the name itself is left bound to
    the second only.  An exception of code 404 ends in [error.html] rendered
    with HTTP-404 and its text; one of code 500 in [error.html] rendered
    with HTTP-500 and its text.  Either way, and whatever the exception
    carries, the outcome is a document, not the exception, and the registry
    is not called. *)
Theorem error_handlers_bound (h : handle osc) :
  let page404 : gmap string (Value Package) :=
    {[ "code" := VStr "HTTP-404";
       "description" := VStr "Page could not be found. This is not where the shop is :(" ]} in
  let page500 : gmap string (Value Package) :=
    {[ "code" := VStr "HTTP-500";
       "description" := VStr "Something went wrong on the shop's server. Please report this event!" ]} in
  error_handler_spec (app webosc) !! 404%Z = Some page_not_found_404 /\
  error_handler_spec (app webosc) !! 500%Z = Some page_not_found_500 /\
  globals webosc !! "page_not_found" = Some (error_function page_not_found_500) /\
  (forall e, exc_code e = 404%Z ->
     run osc render (handle_http_exception (app webosc) e) h =
       (inr (render "error.html" page404), h,
        [ render_template "error.html" page404 ])) /\
  (forall e, exc_code e = 500%Z ->
     run osc render (handle_http_exception (app webosc) e) h =
       (inr (render "error.html" page500), h,
        [ render_template "error.html" page500 ])).
Proof.
  intros page404 page500.
  destruct (def_errorhandler_twice
              (foldl (fun m def => def m) (@new_module Package) (take 5 definitions))
              "page_not_found" 404 500 page_not_found_404 page_not_found_500)
    as (H404 & H500 & Hname & _); [discriminate|].
  change (def_errorhandler 500 _ _ _) with webosc in H404, H500, Hname.
  split; [exact H404|]. split; [exact H500|]. split; [exact Hname|].
  split.
  - intros e He. unfold handle_http_exception. now rewrite He.
  - intros e He. unfold handle_http_exception. now rewrite He.
Qed.

(** C6.  The process starts from the handle that [osc.API()] constructs and
    its first call is [load_packages]; the requests, all of them, are served
    after that call, from the loaded handle, and [load_packages] is not
    called again: it occurs exactly once in the process, at the head. *)
Theorem loaded_once_before_serving (requests : list Request) :
  let loaded := on_load_packages osc (API osc) in
  let '(responses, h1, t) := run osc render (process requests) (API osc) in
  (responses, h1, t) =
    (let '(rs, h2, t2) := run osc render (serve (app webosc) requests) loaded in
     (rs, h2, load_packages :: t2)) /\
  (exists t', t = load_packages :: t' /\ load_packages ∉ t') /\
  count is_load_call t = 1 /\
  length responses = length requests.
Proof.
  intros loaded.
  change (run osc render (process requests) (API osc)) with
    (let '(rs, h2, t2) := run osc render (serve (app webosc) requests) loaded in
     (rs, h2, load_packages :: t2)).
  pose proof (read_only_run _ loaded (serve_read_only requests)) as Hrun.
  pose proof (run_serve_length requests loaded) as Hlen.
  destruct (run osc render (serve (app webosc) requests) loaded) as [[rs h2] t2].
  destruct Hrun as [Hnot _]. cbn in Hlen.
  split; [reflexivity|]. split; [now exists t2|]. split; [|exact Hlen].
  change (count is_load_call (load_packages :: t2)) with (S (count is_load_call t2)).
  now rewrite (count_load_absent t2 Hnot).
Qed.

End Handlers.

(** ** More on the text of the not-found page *)

Lemma length_append (a b : string) :
  String.length (a +:+ b) = String.length a + String.length b.
Proof.
  induction a as [|x a IH]; [reflexivity|].
  rewrite append_cons. cbn. now rewrite IH.
Qed.

Lemma append_inj_r (a b t : string) : a +:+ t = b +:+ t -> a = b.
Proof.
  revert b. induction a as [|x a IH]; intros [|y b] H.
  - reflexivity.
  - apply (f_equal String.length) in H.
    rewrite !length_append in H. cbn [String.length] in H. lia.
  - apply (f_equal String.length) in H.
    rewrite !length_append in H. cbn [String.length] in H. lia.
  - rewrite !append_cons in H. injection H as -> H. f_equal. now apply IH.
Qed.

(** X4.  Two not-found descriptions are the same text exactly when the
    names written into them are: different names that were given are
    quoted differently, and the one name whose page is that of a request
    without the parameter is the four letters of [None]. *)
Theorem not_found_description_inj (name1 name2 : option string) :
  (not_found_description name1 = not_found_description name2 <->
   py_str name1 = py_str name2) /\
  (forall s1 s2,
     not_found_description (Some s1) = not_found_description (Some s2) ->
     s1 = s2) /\
  (forall s,
     not_found_description (Some s) = not_found_description None <->
     s = "None").
Proof.
  assert (Hinj : forall n1 n2,
             not_found_description n1 = not_found_description n2 ->
             py_str n1 = py_str n2).
  { intros n1 n2 H. unfold not_found_description in H.
    apply String.app_inj, String.app_inj in H.
    exact (append_inj_r _ _ _ H). }
  split; [|split].
  - split; [apply Hinj|]. intros H. unfold not_found_description. now rewrite H.
  - intros s1 s2 H. exact (Hinj (Some s1) (Some s2) H).
  - intros s. split.
    + intros H. exact (Hinj (Some s) None H).
    + now intros ->.
Qed.

(** ** Beyond the single request *)

Section Beyond.

Context {Package : Type} (osc : Registry Package) (render : Renderer Package).

Local Abbreviation webosc := (@webosc Package).

Lemma always_bind {A B} (P : Call Package -> Prop) (p : Prog A) (f : A -> Prog B) :
  always P p -> (forall a, always P (f a)) -> always P (p ≫= f).
Proof.
  intros Hp Hf. induction p as [a|c k IH]; cbn.
  - apply Hf.
  - destruct Hp as [Hc Hk]. split; [exact Hc|]. intros x. apply IH, Hk.
Qed.

Lemma always_run {A} (P : Call Package -> Prop) (p : Prog A) (h : handle osc) :
  always P p -> Forall P (run osc render p h).2.
Proof.
  revert h. induction p as [a|c k IH]; intros h Hp; cbn.
  - constructor.
  - destruct Hp as [Hc Hk].
    destruct (perform osc render c h) as [x h1].
    specialize (IH x h1 (Hk x)).
    destruct (run osc render (k x) h1) as [[a h2] t].
    now constructor.
Qed.

(** What holds of every call of every view and of both error handlers
    holds of every call made for a request, and for a whole process. *)
Lemma wsgi_app_always (P : Call Package -> Prop) (request : Request) :
  (forall endpoint f,
      view_functions (app webosc) !! endpoint = Some f -> always P (f request)) ->
  (forall code f e,
      error_handler_spec (app webosc) !! code = Some f -> always P (f e)) ->
  always P (wsgi_app (app webosc) request).
Proof.
  intros Hviews Herrors.
  unfold wsgi_app, full_dispatch_request.
  apply always_bind; [|intros; exact I].
  apply always_bind.
  - unfold dispatch_request.
    destruct (match_request (app webosc) request) as [endpoint|]; [|exact I].
    destruct (view_functions (app webosc) !! endpoint) as [f|] eqn:Hf; [|exact I].
    apply always_bind; [|intros; exact I].
    now apply (Hviews endpoint).
  - intros [e|doc]; [|exact I].
    unfold handle_http_exception.
    destruct (error_handler_spec (app webosc) !! exc_code e) as [f|] eqn:Hf;
      [|exact I].
    apply always_bind; [|intros; exact I].
    now apply (Herrors (exc_code e)).
Qed.

Lemma process_always (P : Call Package -> Prop) (requests : list Request) :
  P load_packages ->
  (forall request, always P (wsgi_app (app webosc) request)) ->
  always P (process requests).
Proof.
  intros Hload Hwsgi. unfold process.
  apply always_bind; [now split|]. intros _.
  induction requests as [|request rest IH]; [exact I|].
  cbn [serve]. apply always_bind; [apply Hwsgi|].
  intros response. apply always_bind; [exact IH|]. intros; exact I.
Qed.

Lemma views_fit (endpoint : string) (f : View) (request : Request) :
  view_functions (app webosc) !! endpoint = Some f ->
  always fits_template (f request) /\ always code_is_fixed (f request).
Proof.
  intros H.
  destruct (webosc_view_functions endpoint f H)
    as [[_ ->]|[[_ ->]|[[_ ->]|[[_ ->]|[_ ->]]]]].
  - cbn. repeat split.
    + rewrite fmap_empty. repeat constructor.
    + intros v Hv. now rewrite lookup_empty in Hv.
  - cbn. repeat split.
    + rewrite map_fmap_singleton. repeat constructor.
    + intros v Hv. now rewrite lookup_singleton_ne in Hv.
  - cbn. repeat split.
    + rewrite map_fmap_singleton. repeat constructor.
    + intros v Hv. now rewrite lookup_singleton_ne in Hv.
  - cbn. repeat split.
    + rewrite fmap_insert, map_fmap_singleton. repeat constructor.
    + intros v Hv. rewrite lookup_insert_eq in Hv. injection Hv as <-.
      eexists. split; [reflexivity|repeat constructor].
  - cbn. split; (split; [exact I|]); intros [p|]; cbn; repeat split.
    + rewrite map_fmap_singleton. repeat constructor.
    + rewrite fmap_insert, map_fmap_singleton. repeat constructor.
    + intros v Hv. now rewrite lookup_singleton_ne in Hv.
    + intros v Hv. rewrite lookup_insert_eq in Hv. injection Hv as <-.
      eexists. split; [reflexivity|repeat constructor].
Qed.

Lemma error_handlers_fit (code : Z) (f : ErrorHandler) (e : HTTPException) :
  error_handler_spec (app webosc) !! code = Some f ->
  always fits_template (f e) /\ always code_is_fixed (f e).
Proof.
  intros H.
  destruct (webosc_error_handlers code f H) as [[_ ->]|[_ ->]];
    cbn; repeat split;
    try (rewrite fmap_insert, map_fmap_singleton; repeat constructor);
    intros v Hv; rewrite lookup_insert_eq in Hv; injection Hv as <-;
    eexists; (split; [reflexivity|repeat constructor]).
Qed.

(** X5.  Whatever the requests, the registry and its answers, every render
    call of the process names one of the six templates of the source and
    gives it exactly the keyword arguments written for it, each of its
    kind: nothing for [welcome.html], the package list for [home.html] and
    [list.html], one package for [app.html], the two strings [code] and
    [description] for [warning.html] and [error.html].  The same holds
    when an exception of any code is handled. *)
Theorem templates_get_their_arguments (requests : list Request)
    (e : HTTPException) (h : handle osc) :
  Forall fits_template (run osc render (process requests) (API osc)).2 /\
  Forall fits_template
    (run osc render (handle_http_exception (app webosc) e) h).2.
Proof.
  split.
  - apply always_run, process_always; [exact I|].
    intros request. apply wsgi_app_always.
    + intros endpoint f Hf. now apply (views_fit endpoint).
    + intros code f e' Hf. now apply (error_handlers_fit code).
  - apply always_run. unfold handle_http_exception.
    destruct (error_handler_spec (app webosc) !! exc_code e) as [f|] eqn:Hf;
      [|exact I].
    apply always_bind; [|intros; exact I].
    now apply (error_handlers_fit (exc_code e)).
Qed.

(** X6.  The code shown on a page never comes from the request or from the
    registry: every render call of the process that carries a [code]
    carries PATCH-WARN on [warning.html], or APP-404, HTTP-404 or HTTP-500
    on [error.html]; and so does the handling of an exception of any
    code. *)
Theorem codes_are_fixed (requests : list Request)
    (e : HTTPException) (h : handle osc) :
  Forall code_is_fixed (run osc render (process requests) (API osc)).2 /\
  Forall code_is_fixed
    (run osc render (handle_http_exception (app webosc) e) h).2.
Proof.
  split.
  - apply always_run, process_always.
    + exact I.
    + intros request. apply wsgi_app_always.
      * intros endpoint f Hf. now apply (views_fit endpoint).
      * intros code f e' Hf. now apply (error_handlers_fit code).
  - apply always_run. unfold handle_http_exception.
    destruct (error_handler_spec (app webosc) !! exc_code e) as [f|] eqn:Hf;
      [|exact I].
    apply always_bind; [|intros; exact I].
    now apply (error_handlers_fit (exc_code e)).
Qed.

(** X1.  A request for [/] is answered with status 200 and [welcome.html]
    rendered without any argument; the registry is not called, so the
    handle is left as it was even by a registry whose reads are not
    pure. *)
Theorem welcome_page (request : Request) (h : handle osc) :
  path request = "/" ->
  run osc render (wsgi_app (app webosc) request) h =
    ({| status := 200; body := render "welcome.html" ∅ |}, h,
     [ render_template "welcome.html" ∅ ]).
Proof.
  intros Hpath.
  now rewrite (run_view osc render "/" "welcome" welcome request h Hpath eq_refl eq_refl).
Qed.

(** X7.  Only 404 and 500 have a handler.  An exception of any other code
    (a 405 for a method that is not allowed, say) is not given the error
    page: it is handed back as it is, nothing is rendered and the registry
    is not called. *)
Theorem other_errors_unhandled (e : HTTPException) (h : handle osc) :
  exc_code e <> 404%Z ->
  exc_code e <> 500%Z ->
  error_handler_spec (app webosc) !! exc_code e = None /\
  run osc render (handle_http_exception (app webosc) e) h = (inl e, h, []).
Proof.
  intros H404 H500.
  assert (Hnone : error_handler_spec (app webosc) !! exc_code e = None).
  { destruct (error_handler_spec (app webosc) !! exc_code e) as [f|] eqn:Hf;
      [|reflexivity].
    destruct (webosc_error_handlers (exc_code e) f Hf) as [[Hc _]|[Hc _]];
      congruence. }
  split; [exact Hnone|].
  unfold handle_http_exception.
  match goal with
  | |- context [error_handler_spec ?a !! ?c] =>
      replace (error_handler_spec a !! c) with (@None (@ErrorHandler Package))
        by (symmetry; exact Hnone)
  end.
  reflexivity.
Qed.

(** X2.  On a registry whose reads are pure the requests do not bear on
    one another: served one after the other from a handle, they get the
    responses, and make the calls, that each would get and make if it were
    served alone from that handle, and the handle comes back as it was. *)
Theorem requests_are_independent (requests : list Request) (h : handle osc) :
  reads_are_pure osc ->
  run osc render (serve (app webosc) requests) h =
    ((fun request =>
        (run osc render (wsgi_app (app webosc) request) h).1.1) <$> requests,
     h,
     concat ((fun request =>
        (run osc render (wsgi_app (app webosc) request) h).2) <$> requests)).
Proof.
  intros Hpure. induction requests as [|request rest IH]; [reflexivity|].
  cbn [serve]. rewrite run_bind.
  pose proof (read_only_run osc render _ h (wsgi_app_read_only request)) as Hone.
  rewrite fmap_cons, fmap_cons.
  destruct (run osc render (wsgi_app (app webosc) request) h) as [[response h1] t1].
  destruct Hone as [_ Hsame]. rewrite (Hsame Hpure).
  rewrite run_bind, IH.
  cbn [run mret Prog_ret fst snd concat]. now rewrite app_nil_r.
Qed.









(** A path that is none of the five rules has no endpoint among the rules
    of the module. *)
Lemma match_request_unknown (request : Request) :
  path request ∉ (url_map (app webosc)).*1 ->
  match_request (app webosc) request = None.
Proof.
  intros Hout. unfold match_request. rewrite webosc_url_map in *.
  cbn [find fst snd fmap list_fmap] in *.
  repeat (let Heq := fresh "Heq" in
          case_bool_decide as Heq;
          [exfalso; apply Hout; rewrite <- Heq; repeat constructor|]).
  reflexivity.
Qed.

(** X8.  A request for a path that is none of the five rules of the module
    makes no registry call at all, and the handle is left as it was, even
    by a registry whose reads are not pure. *)
Theorem unknown_paths_spare_registry (request : Request) (h : handle osc) :
  path request ∉ (url_map (app webosc)).*1 ->
  List.filter is_registry_call
    (run osc render (wsgi_app (app webosc) request) h).2 = [] /\
  (run osc render (wsgi_app (app webosc) request) h).1.2 = h.
Proof.
  intros Hout.
  pose proof (match_request_unknown request Hout) as Hnone.
  unfold wsgi_app, full_dispatch_request, dispatch_request.
  rewrite Hnone. split; reflexivity.
Qed.

End Beyond.

(** ** The theorems at work on the shop *)

Lemma shop_reads_are_pure : reads_are_pure shop.
Proof. split; reflexivity. Defined.

(** [/app?package=hbb] shows the Homebrew Browser; [/app?package=nonexistent]
    shows the not-found page. *)
Lemma application_lookup_witness :
  path (get "/app" [("package", "hbb")]) = "/app" /\
  run shop plain (wsgi_app (app webosc) (get "/app" [("package", "hbb")])) catalogue =
    ({| status := 200; body := "app.html [] Homebrew Browser" |}, catalogue,
     [ package_by_name (Some "hbb");
       render_template "app.html" {[ "package" := VPackage hbb ]} ]) /\
  (run shop plain (wsgi_app (app webosc) (get "/app" [("package", "nonexistent")]))
     catalogue).1.1 =
    {| status := 200;
       body := plain "error.html"
         {[ "code" := VStr "APP-404";
            "description" := VStr (not_found_description (Some "nonexistent")) ]} |}.
Proof.
  split; [reflexivity|]. split.
  - exact (proj1 (application_lookup shop plain
                    (get "/app" [("package", "hbb")]) catalogue eq_refl)
             hbb catalogue eq_refl).
  - rewrite (proj2 (application_lookup shop plain
                      (get "/app" [("package", "nonexistent")]) catalogue eq_refl)
               catalogue eq_refl).
    reflexivity.
Defined.

(** A name that is not in the catalogue, the empty name, and no name. *)
Lemma application_not_found_witness :
  path (get "/app" [("package", "nonexistent")]) = "/app" /\
  on_package_by_name shop catalogue (Some "nonexistent") = (None, catalogue) /\
  run shop plain (wsgi_app (app webosc) (get "/app" [("package", "nonexistent")]))
    catalogue =
    ({| status := 200;
        body := plain "error.html"
          {[ "code" := VStr "APP-404";
             "description" := VStr (not_found_description (Some "nonexistent")) ]} |},
     catalogue,
     [ package_by_name (Some "nonexistent");
       render_template "error.html"
          {[ "code" := VStr "APP-404";
             "description" := VStr (not_found_description (Some "nonexistent")) ]} ]) /\
  contains (not_found_description (Some "nonexistent")) "nonexistent" /\
  (run shop plain (wsgi_app (app webosc) (get "/app" [("package", EmptyString)]))
     catalogue).1.1 =
    {| status := 200;
       body := plain "error.html"
         {[ "code" := VStr "APP-404";
            "description" := VStr (not_found_description (Some EmptyString)) ]} |} /\
  (run shop plain (wsgi_app (app webosc) (get "/app" [])) catalogue).1.1 =
    {| status := 200;
       body := plain "error.html"
         {[ "code" := VStr "APP-404";
            "description" := VStr (not_found_description None) ]} |} /\
  contains (not_found_description None) "None".
Proof.
  split; [reflexivity|]. split; [reflexivity|].
  destruct (application_not_found shop plain
              (get "/app" [("package", "nonexistent")]) catalogue catalogue
              eq_refl eq_refl) as (Hrun & _ & Hname & _).
  split; [exact Hrun|]. split; [exact (Hname "nonexistent" eq_refl)|].
  split; [|split].
  - now rewrite (proj1 (application_not_found shop plain
                          (get "/app" [("package", EmptyString)]) catalogue catalogue
                          eq_refl eq_refl)).
  - now rewrite (proj1 (application_not_found shop plain
                          (get "/app" []) catalogue catalogue eq_refl eq_refl)).
  - exact (proj2 (proj2 (proj2 (application_not_found shop plain
                                  (get "/app" []) catalogue catalogue
                                  eq_refl eq_refl))) eq_refl).
Defined.

(** On the escaping renderer the page for [/app?package=<zz>] has status
    200 and shows APP-404, but the name is not in it as it was sent. *)
Lemma application_not_found_counterexample :
  let request := get "/app" [("package", "<zz>")] in
  let response :=
    (run shop escaping (wsgi_app (app webosc) request) catalogue).1.1 in
  path request = "/app" /\
  on_package_by_name shop catalogue (args_get (args request) "package")
    = (None, catalogue) /\
  status response = 200%Z /\
  contains (body response) "APP-404" /\
  ~ contains (body response) "<zz>".
Proof.
  intros request response.
  split; [reflexivity|]. split; [reflexivity|]. split; [reflexivity|]. split.
  - exists "error.html [".
    exists ("] " +:+ escape (not_found_description (Some "<zz>"))).
    reflexivity.
  - intros Hin. apply contains_occurs in Hin.
    vm_compute in Hin. discriminate Hin.
Qed.

Lemma patches_fixed_witness :
  path (get "/patches" [("package", "hbb")]) = "/patches" /\
  run shop plain (wsgi_app (app webosc) (get "/patches" [("package", "hbb")])) catalogue =
    ({| status := 200;
        body := "warning.html [PATCH-WARN] Many patches could damage or brick your system. The Open Shop Channel is not responsbile for any damages to your Wii." |},
     catalogue,
     [ render_template "warning.html"
         {[ "code" := VStr "PATCH-WARN";
            "description" := VStr "Many patches could damage or brick your system. The Open Shop Channel is not responsbile for any damages to your Wii." ]} ]).
Proof.
  split; [reflexivity|].
  exact (patches_fixed shop plain (get "/patches" [("package", "hbb")]) catalogue eq_refl).
Defined.

Lemma listing_pages_witness :
  path (get "/apps" []) = "/apps" /\
  on_get_packages shop catalogue = (catalogue, catalogue) /\
  run shop plain (wsgi_app (app webosc) (get "/apps" [])) catalogue =
    ({| status := 200; body := "list.html [] Homebrew Browser, WiiXplorer" |},
     catalogue,
     [ get_packages;
       render_template "list.html" {[ "packages" := VPackages catalogue ]} ]) /\
  package_count ({[ "packages" := VPackages catalogue ]} : gmap string (Value Entry)) = 2.
Proof.
  split; [reflexivity|]. split; [reflexivity|].
  exact (listing_pages shop plain (get "/apps" []) "list.html" catalogue
           (or_intror (conj eq_refl eq_refl)) catalogue catalogue eq_refl).
Defined.

Lemma calls_per_request_witness :
  path (get "/app" [("package", "hbb")]) ∈ (url_map (app (@webosc Entry))).*1 /\
  count is_render_call
    (run shop plain (wsgi_app (app webosc) (get "/app" [("package", "hbb")]))
       catalogue).2 = 1 /\
  List.filter is_registry_call
    (run shop plain (wsgi_app (app webosc) (get "/app" [("package", "hbb")]))
       catalogue).2 = [ package_by_name (Some "hbb") ].
Proof.
  assert (Hin : path (get "/app" [("package", "hbb")])
                  ∈ (url_map (app (@webosc Entry))).*1)
    by (cbn; repeat constructor).
  split; [exact Hin|].
  pose proof (calls_per_request shop plain
                (get "/app" [("package", "hbb")]) catalogue Hin) as H.
  destruct (run shop plain (wsgi_app (app webosc)
              (get "/app" [("package", "hbb")])) catalogue) as [[response h1] t].
  destruct H as (_ & Hrender & _ & _ & _ & _ & Hlookup).
  split; [exact Hrender|exact (Hlookup eq_refl)].
Defined.

Lemma registry_unchanged_witness :
  reads_are_pure shop /\
  (run shop plain
     (serve (app webosc)
        [ get "/home" []; get "/app" [("package", "hbb")]; get "/nowhere" [] ])
     catalogue).1.2 = catalogue.
Proof.
  split; [exact shop_reads_are_pure|].
  pose proof (registry_unchanged shop plain
                [ get "/home" []; get "/app" [("package", "hbb")]; get "/nowhere" [] ]
                catalogue) as (_ & _ & H).
  destruct (run shop plain (serve (app webosc) _) catalogue) as [[responses h1] t].
  exact (proj1 (proj2 H shop_reads_are_pure)).
Defined.

Lemma handlers_deterministic_witness :
  let request1 :=
    {| path := "/app"; args := [("package", "hbb"); ("page", "2")];
       headers := [("User-Agent", "wii")] |} in
  let request2 :=
    {| path := "/app"; args := [("sort", "name"); ("package", "hbb"); ("package", "x")];
       headers := [] |} in
  path request1 = path request2 /\
  args_get (args request1) "package" = args_get (args request2) "package" /\
  run shop plain (wsgi_app (app webosc) request1) catalogue =
  run shop plain (wsgi_app (app webosc) request2) catalogue.
Proof.
  intros request1 request2.
  split; [reflexivity|]. split; [reflexivity|].
  exact (proj1 (handlers_deterministic shop plain catalogue)
           request1 request2 eq_refl eq_refl).
Defined.

Lemma error_handlers_bound_witness :
  exc_code NotFound = 404%Z /\
  exc_code InternalServerError = 500%Z /\
  run shop plain (handle_http_exception (app webosc) NotFound) catalogue =
    (inr "error.html [HTTP-404] Page could not be found. This is not where the shop is :(",
     catalogue,
     [ render_template "error.html"
         {[ "code" := VStr "HTTP-404";
            "description" := VStr "Page could not be found. This is not where the shop is :(" ]} ]) /\
  (run shop plain (handle_http_exception (app webosc) InternalServerError)
     catalogue).1.1 =
    inr "error.html [HTTP-500] Something went wrong on the shop's server. Please report this event!".
Proof.
  split; [reflexivity|]. split; [reflexivity|].
  destruct (error_handlers_bound shop plain catalogue)
    as (_ & _ & _ & H404 & H500).
  split.
  - exact (H404 NotFound eq_refl).
  - now rewrite (H500 InternalServerError eq_refl).
Defined.

(** The whole process on three requests: one load, then the pages. *)
Example process_shop :
  run shop plain
    (process [ get "/" []; get "/apps" []; get "/app" [("package", "hbb")] ])
    (API shop) =
  ([ {| status := 200; body := "welcome.html [] " |};
     {| status := 200; body := "list.html [] Homebrew Browser, WiiXplorer" |};
     {| status := 200; body := "app.html [] Homebrew Browser" |} ],
   catalogue,
   [ load_packages;
     render_template "welcome.html" ∅;
     get_packages;
     render_template "list.html" {[ "packages" := VPackages catalogue ]};
     package_by_name (Some "hbb");
     render_template "app.html" {[ "package" := VPackage hbb ]} ]).
Proof. reflexivity. Qed.

Lemma welcome_page_witness :
  path (get "/" [("package", "hbb")]) = "/" /\
  run shop plain (wsgi_app (app webosc) (get "/" [("package", "hbb")])) [] =
    ({| status := 200; body := "welcome.html [] " |}, [],
     [ render_template "welcome.html" ∅ ]).
Proof.
  split; [reflexivity|].
  exact (welcome_page shop plain (get "/" [("package", "hbb")]) [] eq_refl).
Defined.

Lemma requests_are_independent_witness :
  reads_are_pure shop /\
  (run shop plain
     (serve (app webosc)
        [ get "/app" [("package", "wiixplorer")]; get "/apps" [];
          get "/app" [("package", "hbb")] ])
     catalogue).1.1 =
    [ {| status := 200; body := "app.html [] WiiXplorer" |};
      {| status := 200; body := "list.html [] Homebrew Browser, WiiXplorer" |};
      {| status := 200; body := "app.html [] Homebrew Browser" |} ].
Proof.
  split; [exact shop_reads_are_pure|].
  rewrite (requests_are_independent shop plain
             [ get "/app" [("package", "wiixplorer")]; get "/apps" [];
               get "/app" [("package", "hbb")] ]
             catalogue shop_reads_are_pure).
  reflexivity.
Defined.

Lemma other_errors_unhandled_witness :
  let e := {| exc_code := 405; exc_name := "Method Not Allowed" |} in
  exc_code e <> 404%Z /\
  exc_code e <> 500%Z /\
  run shop plain (handle_http_exception (app webosc) e) catalogue =
    (inl e, catalogue, []).
Proof.
  intros e.
  assert (H404 : exc_code e <> 404%Z) by (cbn; lia).
  assert (H500 : exc_code e <> 500%Z) by (cbn; lia).
  split; [exact H404|]. split; [exact H500|].
  exact (proj2 (other_errors_unhandled shop plain e catalogue H404 H500)).
Defined.

Lemma unknown_paths_spare_registry_witness :
  (path (get "/app/" [("package", "hbb")]) ∉ (url_map (app (@webosc Entry))).*1) /\
  List.filter is_registry_call
    (run shop plain (wsgi_app (app webosc) (get "/app/" [("package", "hbb")]))
       catalogue).2 = [] /\
  (run shop plain (wsgi_app (app webosc) (get "/app/" [("package", "hbb")]))
     catalogue).1.2 = catalogue.
Proof.
  assert (Hout : path (get "/app/" [("package", "hbb")])
                   ∉ (url_map (app (@webosc Entry))).*1).
  { apply not_elem_of_cons; split; [discriminate|].
    apply not_elem_of_cons; split; [discriminate|].
    apply not_elem_of_cons; split; [discriminate|].
    apply not_elem_of_cons; split; [discriminate|].
    apply not_elem_of_cons; split; [discriminate|].
    apply not_elem_of_nil. }
  split; [exact Hout|].
  exact (unknown_paths_spare_registry shop plain
           (get "/app/" [("package", "hbb")]) catalogue Hout).
Defined.
